(** * Chicago taxi example pipeline (taxi_pipeline_importer.py)

    A shallow embedding of [tfx/examples/chicago_taxi_pipeline/
    taxi_pipeline_importer.py]: the module-level path constants, the function
    [_create_pipeline] that instantiates the framework components and wires
    their channels, and the [__main__] block that hands the pipeline to the
    Beam runner. *)

From Stdlib Require Import String Ascii List Arith ZArith Lia Bool Floats Relations.
From Stdlib Require Import Sorted.
From ExtLib Require Import Structures.Monad Structures.MonadState Structures.MonadExc.
From ExtLib Require Import Data.Monads.StateMonad Data.Monads.EitherMonad.
Import ListNotations.
Import MonadNotation.
Local Open Scope monad_scope.
Local Open Scope string_scope.
#[local] Existing Instance Monad_stateT.

Set Warnings "-inexact-float".

(** ** Objects of the framework *)

(** Python object identity: every call of a component class, of [Channel]
    and of the runner class creates a new object. *)
Definition oid := nat.

(** [tfx.types.standard_artifacts]: the artifact types this file imports. *)
Inductive ArtifactType := Model | ModelBlessing | Schema.

(** [tfx.components]: the component classes this file imports (lines 26-35). *)
Inductive ComponentClass :=
| CsvExampleGen | Evaluator | ExampleValidator | ImporterNode | Pusher
| ResolverNode | SchemaGen | StatisticsGen | Trainer | Transform.

(** [latest_blessed_model_resolver.LatestBlessedModelResolver]. *)
Inductive ResolverClass := LatestBlessedModelResolver.

(** A channel expression of the source is either [c.outputs[key]], the
    channel object held in the outputs of the component object [c], or a new
    object made by [Channel(type=t)]. *)
Inductive Channel :=
| OutputOf (producer : oid) (key : string)
| NewChannel (self : oid) (type : ArtifactType).

(** *** Protocol-buffer and TFMA configuration values

    Only the fields the source sets are represented. *)

Record TrainArgs := { train_num_steps : Z }.
Record EvalArgs := { eval_num_steps : Z }.

Record Filesystem := { base_directory : string }.
Record PushDestination := { filesystem : Filesystem }.

Record ModelSpec := { signature_name : string }.
Record SlicingSpec := { feature_keys : list string }.

(** [tfma.MetricDirection]. *)
Inductive MetricDirection := UNKNOWN | LOWER_IS_BETTER | HIGHER_IS_BETTER.

(** [lower_bound={'value': v}] and [absolute={'value': v}]: a wrapped
    double. *)
Record DoubleValue := { value : float }.

Record GenericValueThreshold := { lower_bound : DoubleValue }.
Record GenericChangeThreshold :=
  { direction : MetricDirection; absolute : DoubleValue }.
Record MetricThreshold :=
  { value_threshold : GenericValueThreshold;
    change_threshold : GenericChangeThreshold }.

(** [thresholds] is a dict literal keyed by metric name. *)
Record MetricsSpec := { thresholds : list (string * MetricThreshold) }.

Record EvalConfig :=
  { model_specs : list ModelSpec;
    slicing_specs : list SlicingSpec;
    metrics_specs : list MetricsSpec }.

(** *** Components *)

(** The values this file passes as keyword arguments to a component. *)
Inductive Arg :=
| AChannel (c : Channel)
| AText (s : string)
| ABool (b : bool)
| AArtifactType (t : ArtifactType)
| AResolverClass (r : ResolverClass)
| ATrainArgs (a : TrainArgs)
| AEvalArgs (a : EvalArgs)
| AEvalConfig (e : EvalConfig)
| APushDestination (d : PushDestination).

(** Modelled from the spec: the component classes are prebuilt, opaque units
    of the framework, whose code is not part of this file; an instance is
    the record of its constructor call: the identity of the new object, the
    class and the keyword arguments in the order the source writes them. *)
Record Component :=
  { comp_id : oid;
    comp_class : ComponentClass;
    kwargs : list (string * Arg) }.

(** Modelled from the spec: [metadata.sqlite_metadata_connection_config] is
    a framework function outside this file; its result is the record of the
    call. *)
Inductive ConnectionConfig :=
| sqlite_metadata_connection_config (metadata_db_uri : string).

(** [pipeline.Pipeline(...)], with the keyword arguments of lines 167-178. *)
Record Pipeline :=
  { pipeline_name : string;
    pipeline_root : string;
    components : list Component;
    enable_cache : bool;
    metadata_connection_config : ConnectionConfig;
    beam_pipeline_args : list string }.

(** ** The interpreter state and its monad *)

(** [absl.logging] verbosity levels. *)
Inductive LogLevel := FATAL | ERROR | WARNING | INFO | DEBUG.

(** What the script does to the outside: the verbosity it sets and the
    pipelines it hands to a runner object. *)
Inductive Event :=
| SetVerbosity (level : LogLevel)
| RunnerRun (runner : oid) (p : Pipeline).

Inductive Exception := KeyError (key : string).

(** The process as the script sees it: [os.environ], [sys.argv], the next
    free object identity and the calls made so far. *)
Record Interp :=
  { environ : string -> option string;
    argv : list string;
    next_oid : oid;
    trace : list Event }.

Definition Py := stateT Interp (sum Exception).

(** Creation of a Python object. *)
Definition new_object : Py oid :=
  s <- get ;;
  put {| environ := environ s; argv := argv s;
         next_oid := S (next_oid s); trace := trace s |} ;;
  ret (next_oid s).

Definition emit (e : Event) : Py unit :=
  s <- get ;;
  put {| environ := environ s; argv := argv s;
         next_oid := next_oid s; trace := trace s ++ [e] |}.

(** [os.environ[key]] raises [KeyError] on a missing key. *)
Definition os_environ_getitem (key : string) : Py string :=
  s <- get ;;
  match environ s key with
  | Some v => ret v
  | None => raise (KeyError key)
  end.

(** A call of a component class with keyword arguments [kw]. *)
Definition instantiate (cls : ComponentClass) (kw : list (string * Arg))
  : Py Component :=
  self <- new_object ;;
  ret {| comp_id := self; comp_class := cls; kwargs := kw |}.

(** [c.outputs[key]]. *)
Definition outputs (c : Component) (key : string) : Channel :=
  OutputOf (comp_id c) key.

(** [Channel(type=t)]. *)
Definition new_channel (t : ArtifactType) : Py Channel :=
  self <- new_object ;;
  ret (NewChannel self t).

(** ** [_create_pipeline] (lines 80-178) *)

Definition eval_config : EvalConfig :=
  {| model_specs := [ {| signature_name := "eval" |} ];
     slicing_specs :=
       [ {| feature_keys := [] |};
         {| feature_keys := ["trip_start_hour"] |} ];
     metrics_specs :=
       [ {| thresholds :=
              [ ("accuracy",
                 {| value_threshold :=
                      {| lower_bound := {| value := 0.6%float |} |};
                    change_threshold :=
                      {| direction := HIGHER_IS_BETTER;
                         absolute := {| value := (-1e-10)%float |} |} |}) ]
         |} ] |}.

Definition _create_pipeline
    (pipeline_name pipeline_root data_root user_schema_path module_file
       serving_model_dir metadata_path : string)
    (beam_pipeline_args : list string) : Py Pipeline :=
  example_gen <- instantiate CsvExampleGen [("input_base", AText data_root)] ;;
  statistics_gen <-
    instantiate StatisticsGen
      [("examples", AChannel (outputs example_gen "examples"))] ;;
  user_schema_importer <-
    instantiate ImporterNode
      [("instance_name", AText "import_user_schema");
       ("source_uri", AText user_schema_path);
       ("artifact_type", AArtifactType Schema)] ;;
  schema_gen <-
    instantiate SchemaGen
      [("statistics", AChannel (outputs statistics_gen "statistics"));
       ("infer_feature_shape", ABool false)] ;;
  example_validator <-
    instantiate ExampleValidator
      [("statistics", AChannel (outputs statistics_gen "statistics"));
       ("schema", AChannel (outputs user_schema_importer "result"))] ;;
  transform <-
    instantiate Transform
      [("examples", AChannel (outputs example_gen "examples"));
       ("schema", AChannel (outputs user_schema_importer "result"));
       ("module_file", AText module_file)] ;;
  trainer <-
    instantiate Trainer
      [("module_file", AText module_file);
       ("transformed_examples",
        AChannel (outputs transform "transformed_examples"));
       ("schema", AChannel (outputs user_schema_importer "result"));
       ("transform_graph", AChannel (outputs transform "transform_graph"));
       ("train_args", ATrainArgs {| train_num_steps := 10000%Z |});
       ("eval_args", AEvalArgs {| eval_num_steps := 5000%Z |})] ;;
  model_channel <- new_channel Model ;;
  model_blessing_channel <- new_channel ModelBlessing ;;
  model_resolver <-
    instantiate ResolverNode
      [("instance_name", AText "latest_blessed_model_resolver");
       ("resolver_class", AResolverClass LatestBlessedModelResolver);
       ("model", AChannel model_channel);
       ("model_blessing", AChannel model_blessing_channel)] ;;
  evaluator <-
    instantiate Evaluator
      [("examples", AChannel (outputs example_gen "examples"));
       ("model", AChannel (outputs trainer "model"));
       ("baseline_model", AChannel (outputs model_resolver "model"));
       ("eval_config", AEvalConfig eval_config)] ;;
  pusher <-
    instantiate Pusher
      [("model", AChannel (outputs trainer "model"));
       ("model_blessing", AChannel (outputs evaluator "blessing"));
       ("push_destination",
        APushDestination
          {| filesystem := {| base_directory := serving_model_dir |} |})] ;;
  ret {| pipeline_name := pipeline_name;
         pipeline_root := pipeline_root;
         components :=
           [example_gen; statistics_gen; user_schema_importer; schema_gen;
            example_validator; transform; trainer; model_resolver; evaluator;
            pusher];
         enable_cache := true;
         metadata_connection_config :=
           sqlite_metadata_connection_config metadata_path;
         beam_pipeline_args := beam_pipeline_args |}.

(** ** Module-level constants (lines 48-77) *)

(** [os.path.join] is Python's standard library, here in its POSIX form
    ([posixpath.join], separator [/]): a component that starts with the
    separator replaces what was joined so far, otherwise it is appended, after
    a separator unless the path is empty or already ends with one. *)
Module os_path.

Definition sep : string := "/".

Definition startswith (s pre : string) : bool := String.prefix pre s.

Definition endswith (s suf : string) : bool :=
  let n := String.length s in
  let m := String.length suf in
  Nat.leb m n && String.eqb (substring (n - m) m s) suf.

Definition join_step (path b : string) : string :=
  if startswith b sep then b
  else if (String.eqb path "" || endswith path sep)%bool then path ++ b
  else path ++ sep ++ b.

Definition join (a : string) (p : list string) : string :=
  fold_left join_step p a.

End os_path.

Definition _pipeline_name : string := "chicago_taxi_importer".

Definition _beam_pipeline_args : list string :=
  [ "--direct_running_mode=multi_processing";
    "--direct_num_workers=0" ].

(** The module-level names bound from [os.environ['HOME']]. *)
Record Globals :=
  { _taxi_root : string;
    _data_root : string;
    _module_file : string;
    _serving_model_dir : string;
    _tfx_root : string;
    _pipeline_root : string;
    _metadata_path : string;
    _user_schema_path : string }.

Definition module_constants : Py Globals :=
  home <- os_environ_getitem "HOME" ;;
  let taxi_root := os_path.join home ["taxi"] in
  let data_root := os_path.join taxi_root ["data"; "simple"] in
  let module_file := os_path.join taxi_root ["taxi_utils.py"] in
  let serving_model_dir :=
    os_path.join taxi_root ["serving_model"; _pipeline_name] in
  home' <- os_environ_getitem "HOME" ;;
  let tfx_root := os_path.join home' ["tfx"] in
  let pipeline_root := os_path.join tfx_root ["pipelines"; _pipeline_name] in
  let metadata_path :=
    os_path.join tfx_root ["metadata"; _pipeline_name; "metadata.db"] in
  let user_schema_path :=
    os_path.join taxi_root ["data"; "user_provided_schema"] in
  ret {| _taxi_root := taxi_root;
         _data_root := data_root;
         _module_file := module_file;
         _serving_model_dir := serving_model_dir;
         _tfx_root := tfx_root;
         _pipeline_root := pipeline_root;
         _metadata_path := metadata_path;
         _user_schema_path := user_schema_path |}.

(** ** The [__main__] block (lines 183-195) *)

(** [absl.logging.set_verbosity(level)]. *)
Definition absl_logging_set_verbosity (level : LogLevel) : Py unit :=
  emit (SetVerbosity level).

(** [BeamDagRunner()]: a new runner object. *)
Definition BeamDagRunner : Py oid := new_object.

(** [runner.run(p)]: the framework's execution of the pipeline is outside
    this file; the call is recorded. *)
Definition run (runner : oid) (p : Pipeline) : Py unit :=
  emit (RunnerRun runner p).

(** Execution of the file as module [__name__]: the module-level
    assignments, then the guarded block. *)
Definition script (__name__ : string) : Py unit :=
  g <- module_constants ;;
  if String.eqb __name__ "__main__" then
    absl_logging_set_verbosity INFO ;;
    runner <- BeamDagRunner ;;
    p <- _create_pipeline _pipeline_name (_pipeline_root g) (_data_root g)
           (_user_schema_path g) (_module_file g) (_serving_model_dir g)
           (_metadata_path g) _beam_pipeline_args ;;
    run runner p
  else ret tt.

(** ** Reading a pipeline *)

(** The outcome of a computation: its value when it returns. *)
Definition returns {A} (m : Py A) (s : Interp) (a : A) (s' : Interp) : Prop :=
  runStateT m s = inr (a, s').

(** Lookup of a keyword argument by name. *)
Fixpoint get_kwarg (kw : list (string * Arg)) (k : string) : option Arg :=
  match kw with
  | [] => None
  | (k', a) :: rest => if String.eqb k k' then Some a else get_kwarg rest k
  end.

Definition class_eqb (a b : ComponentClass) : bool :=
  match a, b with
  | CsvExampleGen, CsvExampleGen | Evaluator, Evaluator
  | ExampleValidator, ExampleValidator | ImporterNode, ImporterNode
  | Pusher, Pusher | ResolverNode, ResolverNode | SchemaGen, SchemaGen
  | StatisticsGen, StatisticsGen | Trainer, Trainer
  | Transform, Transform => true
  | _, _ => false
  end.

(** The components of class [cls], in list order. *)
Definition of_class (cls : ComponentClass) (p : Pipeline) : list Component :=
  filter (fun c => class_eqb (comp_class c) cls) (components p).

(** The channels a component is given, with the keyword of each. *)
Definition channel_inputs (c : Component) : list (string * Channel) :=
  flat_map (fun ka => match snd ka with
                      | AChannel ch => [(fst ka, ch)]
                      | _ => []
                      end) (kwargs c).

(** The evaluation configurations a component is given. *)
Definition eval_configs (c : Component) : list EvalConfig :=
  flat_map (fun ka => match snd ka with
                      | AEvalConfig e => [e]
                      | _ => []
                      end) (kwargs c).

(** Every metric threshold configured anywhere in the pipeline. *)
Definition metric_thresholds (p : Pipeline) : list (string * MetricThreshold) :=
  flat_map thresholds
    (flat_map metrics_specs (flat_map eval_configs (components p))).

(** [consumes p c d]: in pipeline [p], component [d] is given an output of
    component [c]. *)
Definition consumes (p : Pipeline) (c d : Component) : Prop :=
  In c (components p) /\ In d (components p) /\
  exists kw key, In (kw, OutputOf (comp_id c) key) (channel_inputs d).

(** The nine framework types the specification lists. *)
Definition listed_types : list ComponentClass :=
  [CsvExampleGen; StatisticsGen; SchemaGen; ExampleValidator; Transform;
   Trainer; Evaluator; Pusher; ResolverNode].

(** *** Structure up to object identity *)

Definition rename_channel (f : oid -> oid) (ch : Channel) : Channel :=
  match ch with
  | OutputOf c key => OutputOf (f c) key
  | NewChannel self t => NewChannel (f self) t
  end.

Definition rename_arg (f : oid -> oid) (a : Arg) : Arg :=
  match a with
  | AChannel ch => AChannel (rename_channel f ch)
  | _ => a
  end.

Definition rename_component (f : oid -> oid) (c : Component) : Component :=
  {| comp_id := f (comp_id c);
     comp_class := comp_class c;
     kwargs := map (fun ka => (fst ka, rename_arg f (snd ka))) (kwargs c) |}.

Definition rename_pipeline (f : oid -> oid) (p : Pipeline) : Pipeline :=
  {| pipeline_name := pipeline_name p;
     pipeline_root := pipeline_root p;
     components := map (rename_component f) (components p);
     enable_cache := enable_cache p;
     metadata_connection_config := metadata_connection_config p;
     beam_pipeline_args := beam_pipeline_args p |}.

Definition channel_oid (ch : Channel) : oid :=
  match ch with
  | OutputOf c _ => c
  | NewChannel self _ => self
  end.

(** The object identities a pipeline mentions. *)
Definition object_ids (p : Pipeline) : list oid :=
  flat_map (fun c => comp_id c :: map (fun kc => channel_oid (snd kc))
                                      (channel_inputs c))
           (components p).

(** Two pipelines have the same structure when one is the other with its
    objects renamed one-to-one: the same components in the same order, the
    same wiring and the same configuration values. *)
Definition same_structure (p q : Pipeline) : Prop :=
  exists f : oid -> oid,
    (forall a b, In a (object_ids p) -> In b (object_ids p) ->
                 f a = f b -> a = b) /\
    rename_pipeline f p = q.

(** The runner calls in a trace. *)
Definition runner_calls (t : list Event) : list (oid * Pipeline) :=
  flat_map (fun e => match e with
                     | RunnerRun r p => [(r, p)]
                     | _ => []
                     end) t.

(** A sequence [c, x1, ..., xn, d] along the relation [R]. *)
Fixpoint chain {A} (R : A -> A -> Prop) (c : A) (l : list A) (d : A) : Prop :=
  match l with
  | [] => R c d
  | x :: l' => R c x /\ chain R x l' d
  end.

(** Translation of the object identities from [a] onwards to [b] onwards. *)
Definition shift (a b : oid) (o : oid) : oid := o - a + b.

(** The same process started with other command-line arguments. *)
Definition with_argv (av : list string) (s : Interp) : Interp :=
  {| environ := environ s; argv := av;
     next_oid := next_oid s; trace := trace s |}.

(** Where a pipeline uses each of its six paths: the pipeline root, the
    input base of the CsvExampleGen, the source of the ImporterNode, the
    module file of the Transform and of the Trainer, the base directory of
    the Pusher's destination and the sqlite metadata database. *)
Definition uses_paths (p : Pipeline)
    (root data_root user_schema_path module_file serving_model_dir
       metadata_path : string) : Prop :=
  pipeline_root p = root /\
  (exists c, of_class CsvExampleGen p = [c] /\
             get_kwarg (kwargs c) "input_base" = Some (AText data_root)) /\
  (exists c, of_class ImporterNode p = [c] /\
             get_kwarg (kwargs c) "source_uri" =
               Some (AText user_schema_path)) /\
  (exists c, of_class Transform p = [c] /\
             get_kwarg (kwargs c) "module_file" = Some (AText module_file)) /\
  (exists c, of_class Trainer p = [c] /\
             get_kwarg (kwargs c) "module_file" = Some (AText module_file)) /\
  (exists c, of_class Pusher p = [c] /\
             get_kwarg (kwargs c) "push_destination" =
               Some (APushDestination
                       {| filesystem :=
                            {| base_directory := serving_model_dir |} |})) /\
  metadata_connection_config p =
    sqlite_metadata_connection_config metadata_path.

(** [main_call s g runner p s']: run as [__main__] from the state [s], the
    script binds the module-level constants [g], returns in the state [s'],
    and in between sets the verbosity, makes the runner object [runner],
    calls [_create_pipeline] on the constants, which returns [p], and calls
    the runner's [run] with [p]; these two are all it adds to the trace. *)
Definition main_call (s : Interp) (g : Globals) (runner : oid) (p : Pipeline)
    (s' : Interp) : Prop :=
  returns module_constants s g s /\
  returns (script "__main__") s tt s' /\
  runner = next_oid s /\
  (exists s2,
     returns (_create_pipeline _pipeline_name (_pipeline_root g)
                (_data_root g) (_user_schema_path g) (_module_file g)
                (_serving_model_dir g) (_metadata_path g)
                _beam_pipeline_args)
       {| environ := environ s; argv := argv s; next_oid := S (next_oid s);
          trace := trace s ++ [SetVerbosity INFO] |} p s2) /\
  trace s' = (trace s ++ [SetVerbosity INFO; RunnerRun runner p])%list.

(** The components [p], each after a separator. *)
Definition after_seps (p : list string) : string :=
  fold_right (fun b rest => os_path.sep ++ b ++ rest) "" p.

(** A path component that is not empty and neither starts nor ends with the
    separator. *)
Definition plain (b : string) : Prop :=
  b <> "" /\ os_path.startswith b os_path.sep = false /\
  os_path.endswith b os_path.sep = false.

(** A process state for the examples: [HOME=/home/alice]. *)
Definition example_environ (k : string) : option string :=
  if String.eqb k "HOME" then Some "/home/alice" else None.

Definition example_state : Interp :=
  {| environ := example_environ;
     argv := ["taxi_pipeline_importer.py"];
     next_oid := 100;
     trace := [] |}.

(** *** The graph of a pipeline by class *)

(** The pairs (producer class, consumer class) of the keyword arguments of
    lines 86-165 that are outputs of another component. *)
Definition dataflow : list (ComponentClass * ComponentClass) :=
  [(CsvExampleGen, StatisticsGen);
   (StatisticsGen, SchemaGen);
   (StatisticsGen, ExampleValidator); (ImporterNode, ExampleValidator);
   (CsvExampleGen, Transform); (ImporterNode, Transform);
   (Transform, Trainer); (ImporterNode, Trainer);
   (CsvExampleGen, Evaluator); (Trainer, Evaluator);
   (ResolverNode, Evaluator);
   (Trainer, Pusher); (Evaluator, Pusher)].

(** [along x via y]: each class of [x :: via ++ [y]] is a producer for the
    next in [dataflow]. *)
Fixpoint along (x : ComponentClass) (via : list ComponentClass)
    (y : ComponentClass) : Prop :=
  match via with
  | [] => In (x, y) dataflow
  | z :: via' => In (x, z) dataflow /\ along z via' y
  end.

(** The channels of kind [Channel(type=t)] a component is given. *)
Definition new_channels (c : Component) : list (string * oid * ArtifactType) :=
  flat_map (fun kc => match snd kc with
                      | NewChannel self t => [(fst kc, self, t)]
                      | OutputOf _ _ => []
                      end) (channel_inputs c).

(** What [os.path.join] puts between a path and a component appended to
    it. *)
Definition link (path : string) : string :=
  if (String.eqb path "" || os_path.endswith path os_path.sep)%bool
  then "" else os_path.sep.

(** A process state without [HOME]. *)
Definition bare_state : Interp :=
  {| environ := fun _ => None;
     argv := ["taxi_pipeline_importer.py"];
     next_oid := 0;
     trace := [] |}.

(** A process state with [HOME=/]. *)
Definition root_state : Interp :=
  {| environ := fun k => if String.eqb k "HOME" then Some "/" else None;
     argv := ["taxi_pipeline_importer.py"];
     next_oid := 0;
     trace := [] |}.

(** * Properties *)

(** Runs the computation of a goal [exists a s', returns m s a s' /\ _] and
    leaves the property of its value. *)
Ltac run_py :=
  unfold returns;
  lazymatch goal with
  | |- exists a s', runStateT ?m ?s = inr (a, s') /\ _ =>
      let r := eval cbv in (runStateT m s) in
      lazymatch r with
      | inr (?a, ?s') => exists a, s'; split; [vm_compute; reflexivity|]
      end
  end.

(** ** Components of the pipeline *)

(** C1, as stated, fails: the third component of the list is the
    [ImporterNode] that imports the user schema, and [ImporterNode] is not
    one of the nine listed types. *)
Lemma importer_node_not_listed :
  exists p s' c,
    returns (_create_pipeline "chicago_taxi_importer" "/r" "/d" "/u" "/m"
               "/s" "/db" []) example_state p s' /\
    In c (components p) /\ ~ In (comp_class c) listed_types.
Proof.
  unfold returns.
  eexists. eexists.
  exists {| comp_id := 102; comp_class := ImporterNode;
            kwargs := [("instance_name", AText "import_user_schema");
                       ("source_uri", AText "/u");
                       ("artifact_type", AArtifactType Schema)] |}.
  split; [vm_compute; reflexivity|]. split.
  - cbn. tauto.
  - cbn. intros H. repeat (destruct H as [H|H]; [discriminate H|]). exact H.
Qed.

(** C1 (amended): for all arguments the components list holds, in this
    order, a CsvExampleGen, a StatisticsGen, an ImporterNode, a SchemaGen, an
    ExampleValidator, a Transform, a Trainer, a ResolverNode, an Evaluator
    and a Pusher; so every element's type is one of the nine listed types or
    ImporterNode. *)
Theorem components_classes pn pr dr us mf sm mp bpa s :
  exists p s',
    returns (_create_pipeline pn pr dr us mf sm mp bpa) s p s' /\
    map comp_class (components p) =
      [CsvExampleGen; StatisticsGen; ImporterNode; SchemaGen;
       ExampleValidator; Transform; Trainer; ResolverNode; Evaluator;
       Pusher] /\
    forall c, In c (components p) ->
              In (comp_class c) (ImporterNode :: listed_types).
Proof.
  run_py. split; [reflexivity|].
  intros c H.
  repeat (destruct H as [H|H]; [subst c; cbn; tauto|]).
  contradiction.
Qed.

(** ** Evaluator thresholds *)

(** C2: for all arguments the pipeline has one Evaluator, whose
    [eval_config] is the constant [eval_config]; the metric thresholds
    configured in the whole pipeline are the single entry for [accuracy],
    with a value threshold of lower bound 0.6 and a change threshold of
    direction HIGHER_IS_BETTER. *)
Theorem evaluator_thresholds pn pr dr us mf sm mp bpa s :
  exists p s',
    returns (_create_pipeline pn pr dr us mf sm mp bpa) s p s' /\
    exists ev t,
      of_class Evaluator p = [ev] /\
      get_kwarg (kwargs ev) "eval_config" = Some (AEvalConfig eval_config) /\
      metric_thresholds p = [("accuracy", t)] /\
      value (lower_bound (value_threshold t)) = 0.6%float /\
      direction (change_threshold t) = HIGHER_IS_BETTER.
Proof.
  run_py. do 2 eexists.
  repeat split; reflexivity.
Qed.

(** ** Acyclic wiring *)

Section Ranked.

Variable A : Type.
Variable R : A -> A -> Prop.
Variable rank : A -> nat.
Hypothesis R_rank : forall a b, R a b -> rank a < rank b.

Lemma clos_trans_rank a b : clos_trans A R a b -> rank a < rank b.
Proof.
  induction 1 as [a b H | a b c _ IH1 _ IH2].
  - exact (R_rank a b H).
  - exact (Nat.lt_trans _ _ _ IH1 IH2).
Qed.

Lemma ranked_acyclic a : ~ clos_trans A R a a.
Proof.
  intros H. apply clos_trans_rank in H. exact (Nat.lt_irrefl _ H).
Qed.

Lemma chain_clos_trans l : forall c d, chain R c l d -> clos_trans A R c d.
Proof.
  induction l as [| x l IH]; intros c d H.
  - apply t_step. exact H.
  - destruct H as [H1 H2].
    apply t_trans with x; [apply t_step; exact H1 | apply IH; exact H2].
Qed.

Lemma ranked_no_cycle c l : ~ chain R c l c.
Proof.
  intros H. exact (ranked_acyclic c (chain_clos_trans l c c H)).
Qed.

End Ranked.

(** Membership in a list written out, one case per element. *)
Ltac in_cases H :=
  repeat (destruct H as [H | H]; [| try contradiction]); try contradiction.

(** C4: for all arguments, the relation "is given an output of" between the
    components of the returned pipeline has no cycle: no component reaches
    itself through one or more edges, and no sequence c1, ..., cn, c1 follows
    the edges. *)
Theorem pipeline_acyclic pn pr dr us mf sm mp bpa s :
  exists p s',
    returns (_create_pipeline pn pr dr us mf sm mp bpa) s p s' /\
    (forall c, ~ clos_trans Component (consumes p) c c) /\
    (forall c l, ~ chain (consumes p) c l c).
Proof.
  run_py.
  match goal with |- (forall c, ~ clos_trans _ (consumes ?p) c c) /\ _ =>
    assert (Hrank : forall c d, consumes p c d -> comp_id c < comp_id d)
  end.
  { intros c d (_ & Hd & kw & key & Hin).
    cbn in Hd.
    repeat (destruct Hd as [Hd | Hd];
            [subst d; cbn in Hin;
             repeat (destruct Hin as [Hin | Hin];
                     [inversion Hin; cbn; lia|]);
             contradiction|]).
    contradiction. }
  split.
  - intros c. exact (ranked_acyclic _ _ comp_id Hrank c).
  - intros c l. exact (ranked_no_cycle _ _ comp_id Hrank c l).
Qed.

(** The relation is not empty: the StatisticsGen is given the [examples]
    output of the CsvExampleGen. *)
Lemma example_gen_feeds_statistics_gen pn pr dr us mf sm mp bpa s :
  exists p s',
    returns (_create_pipeline pn pr dr us mf sm mp bpa) s p s' /\
    exists eg sg,
      of_class CsvExampleGen p = [eg] /\ of_class StatisticsGen p = [sg] /\
      consumes p eg sg.
Proof.
  run_py. do 2 eexists.
  split; [reflexivity|]. split; [reflexivity|].
  split; [cbn; tauto|]. split; [cbn; tauto|].
  exists "examples", "examples". cbn. left. reflexivity.
Qed.

(** ** Wiring of single components *)

(** C7: for all arguments, the Pusher's [model] is the Trainer's [model]
    output, its [model_blessing] is the Evaluator's [blessing] output, and
    the base directory of its push destination is [serving_model_dir]. *)
Theorem pusher_wiring pn pr dr us mf sm mp bpa s :
  exists p s',
    returns (_create_pipeline pn pr dr us mf sm mp bpa) s p s' /\
    exists trainer evaluator pusher dest,
      of_class Trainer p = [trainer] /\
      of_class Evaluator p = [evaluator] /\
      of_class Pusher p = [pusher] /\
      get_kwarg (kwargs pusher) "model" =
        Some (AChannel (outputs trainer "model")) /\
      get_kwarg (kwargs pusher) "model_blessing" =
        Some (AChannel (outputs evaluator "blessing")) /\
      get_kwarg (kwargs pusher) "push_destination" =
        Some (APushDestination dest) /\
      base_directory (filesystem dest) = sm.
Proof.
  run_py. do 4 eexists.
  repeat (split; [reflexivity|]). reflexivity.
Qed.

(** C8: for all arguments, the [schema] given to the ExampleValidator, to
    the Transform and to the Trainer is the [result] output of the
    ImporterNode, which imports a Schema from [user_schema_path]; every
    channel passed under the keyword [schema] is that one; and no component
    of the pipeline is given an output of the SchemaGen. *)
Theorem schema_wiring pn pr dr us mf sm mp bpa s :
  exists p s',
    returns (_create_pipeline pn pr dr us mf sm mp bpa) s p s' /\
    exists importer schema_gen validator transform trainer,
      of_class ImporterNode p = [importer] /\
      of_class SchemaGen p = [schema_gen] /\
      of_class ExampleValidator p = [validator] /\
      of_class Transform p = [transform] /\
      of_class Trainer p = [trainer] /\
      get_kwarg (kwargs importer) "source_uri" = Some (AText us) /\
      get_kwarg (kwargs importer) "artifact_type" =
        Some (AArtifactType Schema) /\
      get_kwarg (kwargs validator) "schema" =
        Some (AChannel (outputs importer "result")) /\
      get_kwarg (kwargs transform) "schema" =
        Some (AChannel (outputs importer "result")) /\
      get_kwarg (kwargs trainer) "schema" =
        Some (AChannel (outputs importer "result")) /\
      (forall c ch, In c (components p) ->
                    In ("schema", ch) (channel_inputs c) ->
                    ch = outputs importer "result") /\
      (forall c, ~ consumes p schema_gen c).
Proof.
  run_py. do 5 eexists.
  do 10 (split; [reflexivity|]).
  split.
  - intros c ch Hc Hin. cbn in Hc.
    repeat (destruct Hc as [Hc | Hc];
            [subst c; cbn in Hin;
             repeat (destruct Hin as [Hin | Hin];
                     [inversion Hin; reflexivity|]);
             contradiction|]).
    contradiction.
  - intros c (_ & Hc & kw & key & Hin). cbn in Hc.
    repeat (destruct Hc as [Hc | Hc];
            [subst c; cbn in Hin;
             repeat (destruct Hin as [Hin | Hin];
                     [inversion Hin; lia|]);
             contradiction|]).
    contradiction.
Qed.

(** ** Pipeline options *)

(** C9: for all arguments, the returned pipeline has [enable_cache] true and
    its metadata connection is the sqlite configuration made from
    [metadata_path]. *)
Theorem pipeline_cache_and_metadata pn pr dr us mf sm mp bpa s :
  exists p s',
    returns (_create_pipeline pn pr dr us mf sm mp bpa) s p s' /\
    enable_cache p = true /\
    metadata_connection_config p = sqlite_metadata_connection_config mp.
Proof.
  run_py. split; reflexivity.
Qed.

(** ** Determinism *)

Arguments shift : simpl never.

Lemma shift_inj a b x y : a <= x -> a <= y -> shift a b x = shift a b y -> x = y.
Proof. unfold shift. lia. Qed.

Lemma shift_offset a b k : shift a b (k + a) = k + b.
Proof. unfold shift. lia. Qed.

(** Renaming keeps classes and configuration: structure up to object
    identity is not coarser than that. *)
Lemma same_structure_config p q :
  same_structure p q ->
  pipeline_name p = pipeline_name q /\
  pipeline_root p = pipeline_root q /\
  enable_cache p = enable_cache q /\
  metadata_connection_config p = metadata_connection_config q /\
  beam_pipeline_args p = beam_pipeline_args q /\
  map comp_class (components p) = map comp_class (components q) /\
  metric_thresholds p = metric_thresholds q.
Proof.
  intros (f & _ & <-). cbn.
  repeat (split; [reflexivity|]).
  split.
  - rewrite map_map. reflexivity.
  - unfold metric_thresholds. f_equal. f_equal. cbn.
    induction (components p) as [| c l IH]; [reflexivity|].
    cbn. rewrite IH. f_equal.
    unfold eval_configs. cbn.
    induction (kwargs c) as [| [k a] kw IHk]; [reflexivity|].
    cbn. rewrite IHk. destruct a; reflexivity.
Qed.

Lemma channel_inputs_rename f c :
  channel_inputs (rename_component f c) =
  map (fun kc => (fst kc, rename_channel f (snd kc))) (channel_inputs c).
Proof.
  unfold channel_inputs. cbn [rename_component kwargs].
  induction (kwargs c) as [| [k a] kw IH]; [reflexivity|].
  cbn [map flat_map fst snd]. rewrite IH, map_app.
  destruct a; reflexivity.
Qed.

(** Renaming keeps the wiring: an edge of the pipeline is an edge between
    the renamed components of the renamed pipeline. *)
Lemma rename_consumes f p c d :
  consumes p c d ->
  consumes (rename_pipeline f p) (rename_component f c)
    (rename_component f d).
Proof.
  intros (Hc & Hd & kw & key & Hin).
  split; [apply in_map; exact Hc|]. split; [apply in_map; exact Hd|].
  exists kw, key. rewrite channel_inputs_rename.
  exact (in_map (fun kc => (fst kc, rename_channel f (snd kc))) _ _ Hin).
Qed.

(** Pipelines built from different data roots do not have the same
    structure. *)
Lemma other_data_root_other_structure :
  exists p1 s1 p2 s2,
    returns (_create_pipeline "n" "/r" "/a" "/u" "/m" "/s" "/db" [])
      example_state p1 s1 /\
    returns (_create_pipeline "n" "/r" "/b" "/u" "/m" "/s" "/db" [])
      example_state p2 s2 /\
    ~ same_structure p1 p2.
Proof.
  unfold returns. do 4 eexists.
  split; [vm_compute; reflexivity|]. split; [vm_compute; reflexivity|].
  intros (f & _ & E). discriminate E.
Qed.

(** C10: two calls with equal arguments, from any two process states
    (environment, command line, allocated objects, earlier calls), both
    return, and the two pipelines have the same structure: one is the other
    with its object identities renamed one-to-one. *)
Theorem create_pipeline_deterministic pn pr dr us mf sm mp bpa s1 s2 :
  exists p1 s1' p2 s2',
    returns (_create_pipeline pn pr dr us mf sm mp bpa) s1 p1 s1' /\
    returns (_create_pipeline pn pr dr us mf sm mp bpa) s2 p2 s2' /\
    same_structure p1 p2.
Proof.
  destruct s1 as [env1 av1 n1 tr1], s2 as [env2 av2 n2 tr2].
  unfold returns.
  let r1 := eval cbv in
    (runStateT (_create_pipeline pn pr dr us mf sm mp bpa)
       {| environ := env1; argv := av1; next_oid := n1; trace := tr1 |}) in
  let r2 := eval cbv in
    (runStateT (_create_pipeline pn pr dr us mf sm mp bpa)
       {| environ := env2; argv := av2; next_oid := n2; trace := tr2 |}) in
  lazymatch r1 with
  | inr (?p1, ?t1) =>
      lazymatch r2 with
      | inr (?p2, ?t2) => exists p1, t1, p2, t2
      end
  end.
  split; [vm_compute; reflexivity|]. split; [vm_compute; reflexivity|].
  exists (shift n1 n2). split.
  - intros a b Ha Hb. apply shift_inj.
    + clear Hb. cbn in Ha. in_cases Ha; lia.
    + clear Ha. cbn in Hb. in_cases Hb; lia.
  - unfold rename_pipeline, rename_component. cbn.
    repeat f_equal; unfold shift; lia.
Qed.

(** ** The module-level constants and the main block *)

Lemma run_bind {A B} (m : Py A) (k : A -> Py B) (s : Interp) :
  runStateT (bind m k) s =
  match runStateT m s with
  | inl e => inl e
  | inr (a, s') => runStateT (k a) s'
  end.
Proof.
  cbn. destruct (runStateT m s) as [e | [a s']]; reflexivity.
Qed.

Lemma returns_functional {A} (m : Py A) s a1 s1 a2 s2 :
  returns m s a1 s1 -> returns m s a2 s2 -> a1 = a2 /\ s1 = s2.
Proof.
  unfold returns. intros H1 H2. rewrite H1 in H2.
  injection H2 as -> ->. split; reflexivity.
Qed.

Lemma environ_getitem_returns s key v :
  environ s key = Some v -> returns (os_environ_getitem key) s v s.
Proof.
  intros H. unfold returns, os_environ_getitem. cbn. rewrite H. reflexivity.
Qed.

Lemma environ_getitem_raises s key :
  environ s key = None ->
  runStateT (os_environ_getitem key) s = inl (KeyError key).
Proof.
  intros H. unfold os_environ_getitem. cbn. rewrite H. reflexivity.
Qed.

(** With [HOME] set the module-level assignments return, leave the process
    state as it is, and bind the eight paths to joins under [HOME]. *)
Lemma module_constants_returns s home :
  environ s "HOME" = Some home ->
  returns module_constants s
    {| _taxi_root := os_path.join home ["taxi"];
       _data_root :=
         os_path.join (os_path.join home ["taxi"]) ["data"; "simple"];
       _module_file :=
         os_path.join (os_path.join home ["taxi"]) ["taxi_utils.py"];
       _serving_model_dir :=
         os_path.join (os_path.join home ["taxi"])
           ["serving_model"; _pipeline_name];
       _tfx_root := os_path.join home ["tfx"];
       _pipeline_root :=
         os_path.join (os_path.join home ["tfx"])
           ["pipelines"; _pipeline_name];
       _metadata_path :=
         os_path.join (os_path.join home ["tfx"])
           ["metadata"; _pipeline_name; "metadata.db"];
       _user_schema_path :=
         os_path.join (os_path.join home ["taxi"])
           ["data"; "user_provided_schema"] |} s.
Proof.
  intros H. unfold returns, module_constants.
  rewrite run_bind, (environ_getitem_returns s "HOME" home H).
  rewrite run_bind, (environ_getitem_returns s "HOME" home H).
  reflexivity.
Qed.

(** Without [HOME] the script ends in [KeyError], under any module name. *)
Lemma script_without_home s name :
  environ s "HOME" = None ->
  runStateT (script name) s = inl (KeyError "HOME").
Proof.
  intros H. unfold script, module_constants.
  rewrite !run_bind, (environ_getitem_raises s "HOME" H). reflexivity.
Qed.

(** X15: imported under another name than [__main__], with [HOME] set, the
    module only binds its constants: it returns with the process state as
    it was, no verbosity set, no object made, no runner called. *)
Lemma script_imported s home name :
  environ s "HOME" = Some home -> name <> "__main__" ->
  returns (script name) s tt s.
Proof.
  intros H Hn. unfold returns, script.
  rewrite run_bind, (module_constants_returns s home H).
  apply String.eqb_neq in Hn. rewrite Hn. reflexivity.
Qed.

(** For all arguments the returned pipeline uses each path argument in its
    own place. *)
Lemma create_pipeline_uses_paths pn pr dr us mf sm mp bpa s :
  exists p s',
    returns (_create_pipeline pn pr dr us mf sm mp bpa) s p s' /\
    uses_paths p pr dr us mf sm mp.
Proof.
  run_py. unfold uses_paths.
  split; [reflexivity|].
  do 5 (split; [eexists; split; reflexivity|]).
  reflexivity.
Qed.

(** For all arguments the returned pipeline has the name and the
    [beam_pipeline_args] it was given. *)
Lemma create_pipeline_name_and_beam_args pn pr dr us mf sm mp bpa s :
  exists p s',
    returns (_create_pipeline pn pr dr us mf sm mp bpa) s p s' /\
    pipeline_name p = pn /\ beam_pipeline_args p = bpa.
Proof.
  run_py. split; reflexivity.
Qed.

Lemma returned_uses_paths pn pr dr us mf sm mp bpa s p s' :
  returns (_create_pipeline pn pr dr us mf sm mp bpa) s p s' ->
  uses_paths p pr dr us mf sm mp.
Proof.
  intros Hp.
  destruct (create_pipeline_uses_paths pn pr dr us mf sm mp bpa s)
    as (p' & s2' & Hp' & Hu).
  destruct (returns_functional _ _ _ _ _ _ Hp Hp') as [-> _]. exact Hu.
Qed.

Lemma returned_name_and_beam_args pn pr dr us mf sm mp bpa s p s' :
  returns (_create_pipeline pn pr dr us mf sm mp bpa) s p s' ->
  pipeline_name p = pn /\ beam_pipeline_args p = bpa.
Proof.
  intros Hp.
  destruct (create_pipeline_name_and_beam_args pn pr dr us mf sm mp bpa s)
    as (p' & s2' & Hp' & Hu).
  destruct (returns_functional _ _ _ _ _ _ Hp Hp') as [-> _]. exact Hu.
Qed.

(** The main block, once the module-level constants are bound. *)
Lemma script_main_returns s g :
  returns module_constants s g s ->
  exists runner p s', main_call s g runner p s'.
Proof.
  intros Hg. unfold main_call. unfold returns in *. unfold script.
  rewrite run_bind, Hg.
  destruct g as [g1 g2 g3 g4 g5 g6 g7 g8], s as [env av n tr].
  exists n.
  let r := eval cbv -[app] in
    (runStateT (_create_pipeline _pipeline_name g6 g2 g8 g3 g4 g7
                  _beam_pipeline_args)
       {| environ := env; argv := av; next_oid := S n;
          trace := tr ++ [SetVerbosity INFO] |}) in
  lazymatch r with
  | inr (?p, ?s2) =>
      exists p;
      exists {| environ := env; argv := av; next_oid := next_oid s2;
                trace := tr ++ [SetVerbosity INFO; RunnerRun n p] |};
      split; [reflexivity|]; split;
      [| split; [reflexivity|]; split;
         [exists s2; vm_compute; reflexivity | reflexivity]]
  end.
  cbv -[app]. rewrite <- app_assoc. reflexivity.
Qed.

(** The pipeline [_create_pipeline] returns depends on the process state
    only through the next free object identity. *)
Lemma create_pipeline_frame pn pr dr us mf sm mp bpa s s0 p s' :
  returns (_create_pipeline pn pr dr us mf sm mp bpa) s p s' ->
  next_oid s0 = next_oid s ->
  exists s0', returns (_create_pipeline pn pr dr us mf sm mp bpa) s0 p s0'.
Proof.
  destruct s as [env av n tr], s0 as [env0 av0 n0 tr0].
  unfold returns. cbn [next_oid]. intros H ->.
  vm_compute in H. injection H as <- _.
  eexists. vm_compute. reflexivity.
Qed.

Lemma runner_calls_app t u :
  runner_calls (t ++ u) = (runner_calls t ++ runner_calls u)%list.
Proof. unfold runner_calls. apply flat_map_app. Qed.

Lemma main_call_runs_once s g runner p s' :
  main_call s g runner p s' ->
  runner_calls (trace s') = (runner_calls (trace s) ++ [(runner, p)])%list.
Proof.
  intros (_ & _ & _ & _ & ->). rewrite runner_calls_app. reflexivity.
Qed.

(** ** Paths joined under [HOME] *)

Lemma prefix_append a b : String.prefix a (a ++ b) = true.
Proof.
  induction a as [| c a IH]; cbn.
  - destruct b; reflexivity.
  - destruct (ascii_dec c c) as [_ | N]; [exact IH | contradiction].
Qed.

Lemma prefix_reflexive a : String.prefix a a = true.
Proof.
  induction a as [| c a IH]; cbn; [reflexivity|].
  destruct (ascii_dec c c) as [_ | N]; [exact IH | contradiction].
Qed.

Lemma prefix_transitive a : forall b c,
  String.prefix a b = true -> String.prefix b c = true ->
  String.prefix a c = true.
Proof.
  induction a as [| x a IH]; intros b c Hab Hbc.
  - destruct c; reflexivity.
  - destruct b as [| y b]; [discriminate Hab|].
    destruct c as [| z c]; [discriminate Hbc|].
    cbn in *.
    destruct (ascii_dec x y) as [-> | _]; [| discriminate Hab].
    destruct (ascii_dec y z) as [_ | _]; [| discriminate Hbc].
    exact (IH b c Hab Hbc).
Qed.

Lemma join_step_prefix path b :
  os_path.startswith b os_path.sep = false ->
  String.prefix path (os_path.join_step path b) = true.
Proof.
  intros H. unfold os_path.join_step. rewrite H.
  destruct (String.eqb path "" || os_path.endswith path os_path.sep)%bool;
    apply prefix_append.
Qed.

Lemma join_prefix p : forall a,
  Forall (fun b => os_path.startswith b os_path.sep = false) p ->
  String.prefix a (os_path.join a p) = true.
Proof.
  induction p as [| b p IH]; intros a H.
  - apply prefix_reflexive.
  - inversion H as [| ? ? Hb Hp]; subst.
    apply prefix_transitive with (os_path.join_step a b).
    + apply join_step_prefix. exact Hb.
    + exact (IH _ Hp).
Qed.

Lemma join_join a p q :
  os_path.join (os_path.join a p) q = os_path.join a (p ++ q).
Proof.
  unfold os_path.join. rewrite fold_left_app. reflexivity.
Qed.

Lemma append_associative a b c : (a ++ b) ++ c = a ++ (b ++ c).
Proof.
  induction a as [| x a IH]; cbn; [reflexivity | rewrite IH; reflexivity].
Qed.

Lemma endswith_sep_cons c s :
  s <> "" ->
  os_path.endswith (String c s) os_path.sep = os_path.endswith s os_path.sep.
Proof.
  destruct s as [| d s]; [intros N; contradiction|]. intros _.
  unfold os_path.endswith, os_path.sep. cbn [String.length Nat.leb andb].
  replace (S (S (String.length s)) - 1) with (S (String.length s)) by lia.
  replace (S (String.length s) - 1) with (String.length s) by lia.
  reflexivity.
Qed.

Lemma endswith_sep_append a b :
  b <> "" ->
  os_path.endswith (a ++ b) os_path.sep = os_path.endswith b os_path.sep.
Proof.
  intros Hb. induction a as [| c a IH]; [reflexivity|].
  cbn [append]. rewrite endswith_sep_cons; [exact IH|].
  destruct a; [exact Hb | discriminate].
Qed.

Lemma join_step_plain a b :
  a <> "" -> os_path.endswith a os_path.sep = false ->
  os_path.startswith b os_path.sep = false ->
  os_path.join_step a b = a ++ os_path.sep ++ b.
Proof.
  intros Ha He Hb. unfold os_path.join_step. rewrite Hb, He.
  apply String.eqb_neq in Ha. rewrite Ha. reflexivity.
Qed.

(** Joining plain components under a path that is not empty and does not
    end with the separator appends each after a separator. *)
Lemma join_plain p : forall a,
  a <> "" -> os_path.endswith a os_path.sep = false ->
  Forall plain p ->
  os_path.join a p = a ++ after_seps p.
Proof.
  induction p as [| b p IH]; intros a Ha He Hp.
  - cbn. induction a as [| c a IHa]; [reflexivity|].
    cbn. f_equal. destruct a as [| d a]; [reflexivity|].
    apply IHa; [discriminate|].
    rewrite <- He. symmetry. apply endswith_sep_cons. discriminate.
  - inversion Hp as [| ? ? (Hb & Hs & Hn) Hp']; subst.
    change (os_path.join a (b :: p))
      with (os_path.join (os_path.join_step a b) p).
    rewrite (join_step_plain a b Ha He Hs).
    rewrite IH; [| | | exact Hp'].
    + cbn [after_seps fold_right].
      rewrite !append_associative. reflexivity.
    + destruct a; [contradiction | discriminate].
    + rewrite endswith_sep_append; [| discriminate].
      rewrite <- Hn. apply (endswith_sep_append os_path.sep b Hb).
Qed.

(** With [HOME] set, each of the six paths handed to [_create_pipeline]
    starts with the value of [HOME]. *)
Lemma paths_under_home s home g :
  environ s "HOME" = Some home ->
  returns module_constants s g s ->
  Forall (fun path => String.prefix home path = true)
    [_data_root g; _user_schema_path g; _module_file g;
     _serving_model_dir g; _metadata_path g; _pipeline_root g].
Proof.
  intros H Hg.
  destruct (returns_functional _ _ _ _ _ _ Hg
              (module_constants_returns s home H)) as [-> _].
  cbn [_data_root _user_schema_path _module_file _serving_model_dir
       _metadata_path _pipeline_root].
  rewrite !join_join.
  repeat constructor; apply join_prefix; repeat constructor.
Qed.

(** The module-level constants depend on the process state only through
    the value of [HOME]. *)
Lemma module_constants_frame s s0 g :
  returns module_constants s g s ->
  environ s0 "HOME" = environ s "HOME" ->
  returns module_constants s0 g s0.
Proof.
  intros Hg He. destruct (environ s "HOME") as [home |] eqn:E.
  - destruct (returns_functional _ _ _ _ _ _ Hg
                (module_constants_returns s home E)) as [-> _].
    apply module_constants_returns. exact He.
  - unfold returns, module_constants in Hg.
    rewrite run_bind, (environ_getitem_raises s "HOME" E) in Hg.
    discriminate Hg.
Qed.

(** The main block does not look at the command line: started with other
    arguments it makes the same runner object and hands it the same
    pipeline. *)
Lemma main_call_any_argv s g runner p s' av :
  main_call s g runner p s' ->
  exists s'', main_call (with_argv av s) g runner p s'' /\
              trace s'' = trace s'.
Proof.
  intros (Hg & Hs & Hr & (s2 & Hp) & Ht).
  pose proof (module_constants_frame s (with_argv av s) g Hg eq_refl) as Hg'.
  destruct (script_main_returns _ _ Hg') as (runner' & p' & s'' & Hm).
  destruct Hm as (_ & Hs' & Hr' & (s2' & Hp') & Ht').
  cbn [with_argv environ argv next_oid trace] in Hr', Hp', Ht'.
  assert (runner' = runner) as -> by congruence.
  destruct (create_pipeline_frame _ _ _ _ _ _ _ _ _
              {| environ := environ s; argv := av;
                 next_oid := S (next_oid s);
                 trace := trace s ++ [SetVerbosity INFO] |} _ _ Hp eq_refl)
    as (s0' & Hp0).
  destruct (returns_functional _ _ _ _ _ _ Hp' Hp0) as [-> _].
  exists s''. split; [| congruence].
  unfold main_call. cbn [with_argv environ argv next_oid trace].
  repeat split; try assumption. exists s2'. exact Hp'.
Qed.

(** C5: with [HOME] set, the six paths are joins under the value of [HOME]
    (each starts with it), and run as [__main__] the script calls
    [_create_pipeline] with each in its own parameter, so that the pipeline
    handed to the runner uses each in its place. *)
Theorem main_paths s home :
  environ s "HOME" = Some home ->
  exists g runner p s',
    main_call s g runner p s' /\
    _data_root g =
      os_path.join (os_path.join home ["taxi"]) ["data"; "simple"] /\
    _user_schema_path g =
      os_path.join (os_path.join home ["taxi"])
        ["data"; "user_provided_schema"] /\
    _module_file g =
      os_path.join (os_path.join home ["taxi"]) ["taxi_utils.py"] /\
    _serving_model_dir g =
      os_path.join (os_path.join home ["taxi"])
        ["serving_model"; "chicago_taxi_importer"] /\
    _metadata_path g =
      os_path.join (os_path.join home ["tfx"])
        ["metadata"; "chicago_taxi_importer"; "metadata.db"] /\
    _pipeline_root g =
      os_path.join (os_path.join home ["tfx"])
        ["pipelines"; "chicago_taxi_importer"] /\
    Forall (fun path => String.prefix home path = true)
      [_data_root g; _user_schema_path g; _module_file g;
       _serving_model_dir g; _metadata_path g; _pipeline_root g] /\
    uses_paths p (_pipeline_root g) (_data_root g) (_user_schema_path g)
      (_module_file g) (_serving_model_dir g) (_metadata_path g).
Proof.
  intros H.
  pose proof (module_constants_returns s home H) as Hg.
  destruct (script_main_returns _ _ Hg) as (runner & p & s' & Hm).
  eexists. exists runner, p, s'.
  split; [exact Hm|].
  do 6 (split; [reflexivity|]).
  split; [exact (paths_under_home s home _ H Hg)|].
  destruct Hm as (_ & _ & _ & (s2 & Hp) & _).
  exact (returned_uses_paths _ _ _ _ _ _ _ _ _ _ _ Hp).
Qed.

(** C6, as stated, fails: run as [__main__] in a process without [HOME],
    the script ends in [KeyError] at the module-level assignments; it does
    not return, and there is no run of it with one runner call on a pipeline
    built from the module-level constants. *)
Lemma main_without_home_raises :
  runStateT (script "__main__") bare_state = inl (KeyError "HOME") /\
  ~ (exists g runner p s',
       main_call bare_state g runner p s' /\
       runner_calls (trace s') =
         (runner_calls (trace bare_state) ++ [(runner, p)])%list /\
       forall av, exists s'',
         main_call (with_argv av bare_state) g runner p s'' /\
         trace s'' = trace s').
Proof.
  split; [vm_compute; reflexivity|].
  intros (g & runner & p & s' & (Hg & _) & _).
  unfold returns in Hg. vm_compute in Hg. discriminate Hg.
Qed.

(** C6: with [HOME] set, run as [__main__] the script returns after exactly
    one call of the runner's [run], whose argument is the pipeline
    [_create_pipeline] returns on the module-level constants; the command
    line has no influence on the call. *)
Theorem main_runs_once s home :
  environ s "HOME" = Some home ->
  exists g runner p s',
    main_call s g runner p s' /\
    runner_calls (trace s') = (runner_calls (trace s) ++ [(runner, p)])%list /\
    forall av, exists s'',
      main_call (with_argv av s) g runner p s'' /\ trace s'' = trace s'.
Proof.
  intros H.
  pose proof (module_constants_returns s home H) as Hg.
  destruct (script_main_returns _ _ Hg) as (runner & p & s' & Hm).
  eexists. exists runner, p, s'.
  split; [exact Hm|].
  split; [exact (main_call_runs_once _ _ _ _ _ Hm)|].
  intros av. exact (main_call_any_argv _ _ _ _ _ av Hm).
Qed.

(** C3: [_beam_pipeline_args] has two elements; [_create_pipeline] puts the
    list it is given, as it is, into the pipeline; and with [HOME] set the
    pipeline handed to the runner has [_beam_pipeline_args] as its
    [beam_pipeline_args]. *)
Theorem beam_args_passed s home :
  environ s "HOME" = Some home ->
  length _beam_pipeline_args = 2 /\
  (forall pn pr dr us mf sm mp bpa s0,
     exists p s0',
       returns (_create_pipeline pn pr dr us mf sm mp bpa) s0 p s0' /\
       beam_pipeline_args p = bpa) /\
  exists g runner p s',
    main_call s g runner p s' /\
    runner_calls (trace s') = (runner_calls (trace s) ++ [(runner, p)])%list /\
    beam_pipeline_args p = _beam_pipeline_args.
Proof.
  intros H. split; [reflexivity|]. split.
  - intros pn pr dr us mf sm mp bpa s0.
    destruct (create_pipeline_name_and_beam_args pn pr dr us mf sm mp bpa s0)
      as (p & s0' & Hp & _ & Hb).
    exists p, s0'. split; assumption.
  - pose proof (module_constants_returns s home H) as Hg.
    destruct (script_main_returns _ _ Hg) as (runner & p & s' & Hm).
    eexists. exists runner, p, s'.
    split; [exact Hm|].
    split; [exact (main_call_runs_once _ _ _ _ _ Hm)|].
    destruct Hm as (_ & _ & _ & (s2 & Hp) & _).
    exact (proj2 (returned_name_and_beam_args _ _ _ _ _ _ _ _ _ _ _ Hp)).
Qed.

(** With a [HOME] that is not empty and does not end with [/], the six paths
    are the value of [HOME] followed by fixed suffixes. *)
Lemma paths_closed_form s home g :
  environ s "HOME" = Some home ->
  home <> "" -> os_path.endswith home "/" = false ->
  returns module_constants s g s ->
  _data_root g = home ++ "/taxi/data/simple" /\
  _user_schema_path g = home ++ "/taxi/data/user_provided_schema" /\
  _module_file g = home ++ "/taxi/taxi_utils.py" /\
  _serving_model_dir g = home ++ "/taxi/serving_model/chicago_taxi_importer" /\
  _metadata_path g =
    home ++ "/tfx/metadata/chicago_taxi_importer/metadata.db" /\
  _pipeline_root g = home ++ "/tfx/pipelines/chicago_taxi_importer".
Proof.
  intros H Hne Hend Hg.
  destruct (returns_functional _ _ _ _ _ _ Hg
              (module_constants_returns s home H)) as [-> _].
  cbn [_data_root _user_schema_path _module_file _serving_model_dir
       _metadata_path _pipeline_root].
  rewrite !join_join.
  repeat split;
    (rewrite join_plain;
     [reflexivity | exact Hne | exact Hend
     | repeat constructor; discriminate]).
Qed.

(** ** The script at [HOME=/home/alice] *)

(** The paths of the pipeline handed to the runner at [HOME=/home/alice]. *)
Lemma main_paths_witness :
  environ example_state "HOME" = Some "/home/alice" /\
  exists g runner p s',
    main_call example_state g runner p s' /\
    uses_paths p
      "/home/alice/tfx/pipelines/chicago_taxi_importer"
      "/home/alice/taxi/data/simple"
      "/home/alice/taxi/data/user_provided_schema"
      "/home/alice/taxi/taxi_utils.py"
      "/home/alice/taxi/serving_model/chicago_taxi_importer"
      "/home/alice/tfx/metadata/chicago_taxi_importer/metadata.db".
Proof.
  split; [reflexivity|].
  destruct (main_paths example_state "/home/alice" eq_refl)
    as (g & runner & p & s' & Hm & H1 & H2 & H3 & H4 & H5 & H6 & _ & Hu).
  exists g, runner, p, s'. split; [exact Hm|].
  rewrite H1, H2, H3, H4, H5, H6 in Hu. exact Hu.
Defined.

(** The single runner call at [HOME=/home/alice], from an empty trace. *)
Lemma main_runs_once_witness :
  environ example_state "HOME" = Some "/home/alice" /\
  exists g runner p s',
    main_call example_state g runner p s' /\
    runner_calls (trace s') = [(runner, p)] /\
    forall av, exists s'',
      main_call (with_argv av example_state) g runner p s'' /\
      trace s'' = trace s'.
Proof.
  split; [reflexivity|].
  exact (main_runs_once example_state "/home/alice" eq_refl).
Defined.

(** The Beam arguments of the pipeline handed to the runner at
    [HOME=/home/alice]. *)
Lemma beam_args_passed_witness :
  environ example_state "HOME" = Some "/home/alice" /\
  exists g runner p s',
    main_call example_state g runner p s' /\
    runner_calls (trace s') = [(runner, p)] /\
    beam_pipeline_args p =
      ["--direct_running_mode=multi_processing"; "--direct_num_workers=0"].
Proof.
  split; [reflexivity|].
  exact (proj2 (proj2 (beam_args_passed example_state "/home/alice"
                         eq_refl))).
Defined.

(** * Further properties of the pipeline graph *)

Lemma create_pipeline_returns pn pr dr us mf sm mp bpa s :
  exists p s', returns (_create_pipeline pn pr dr us mf sm mp bpa) s p s'.
Proof.
  destruct (create_pipeline_name_and_beam_args pn pr dr us mf sm mp bpa s)
    as (p & s' & H & _).
  exists p, s'. exact H.
Qed.

(** Turns a hypothesis [returns (_create_pipeline ...) s p s'] into the
    value of [p]. *)
Ltac returned H :=
  lazymatch type of H with
  | returns _ ?s ?p _ =>
      destruct s as [?env ?av ?n ?tr];
      unfold returns in H; vm_compute in H; injection H as <- _
  end.

(** Case analysis on a membership in a list written out. *)
Ltac cases_in H :=
  cbn in H;
  repeat (destruct H as [H | H]; [| try contradiction]);
  try contradiction.

Ltac pick_in := first [left; reflexivity | right; pick_in].

Section Returned.

Variables pn pr dr us mf sm mp : string.
Variable bpa : list string.
Variables (s : Interp) (p : Pipeline) (s' : Interp).
Hypothesis Hret : returns (_create_pipeline pn pr dr us mf sm mp bpa) s p s'.

Lemma returned_classes :
  map comp_class (components p) =
    [CsvExampleGen; StatisticsGen; ImporterNode; SchemaGen; ExampleValidator;
     Transform; Trainer; ResolverNode; Evaluator; Pusher].
Proof. returned Hret. reflexivity. Qed.

Lemma returned_ids_increase :
  StronglySorted lt (map comp_id (components p)).
Proof.
  returned Hret. cbn.
  repeat (constructor; [| repeat constructor; lia]). constructor.
Qed.

Lemma returned_class_inj c d :
  In c (components p) -> In d (components p) ->
  comp_class c = comp_class d -> c = d.
Proof.
  returned Hret. intros Hc Hd.
  cases_in Hc; subst c; cases_in Hd; subst d; cbn; intros E;
    first [reflexivity | discriminate E].
Qed.

Lemma returned_edge_rank c d : consumes p c d -> comp_id c < comp_id d.
Proof.
  returned Hret. intros (_ & Hd & kw & key & Hin).
  cases_in Hd; subst d; cases_in Hin; inversion Hin; cbn; lia.
Qed.

Lemma returned_edge_dataflow c d :
  consumes p c d -> In (comp_class c, comp_class d) dataflow.
Proof.
  returned Hret. intros (Hc & Hd & kw & key & Hin).
  cases_in Hd; subst d; cases_in Hin; inversion Hin as [[Hk Hid Hkey]];
    clear Hin; cases_in Hc; subst c; cbn in Hid; try lia; cbn; tauto.
Qed.

Lemma returned_dataflow_edge c d :
  In c (components p) -> In d (components p) ->
  In (comp_class c, comp_class d) dataflow -> consumes p c d.
Proof.
  returned Hret. intros Hc Hd Hcd.
  cases_in Hc; subst c; cases_in Hd; subst d; cases_in Hcd;
    try discriminate Hcd;
    (split; [cbn; tauto|]; split; [cbn; tauto|];
     do 2 eexists; cbn; pick_in).
Qed.

Lemma returned_has_class cls :
  exists c, In c (components p) /\ comp_class c = cls.
Proof.
  assert (H : In cls (map comp_class (components p))).
  { rewrite returned_classes. destruct cls; cbn; tauto. }
  apply in_map_iff in H. destruct H as (c & E & Hc).
  exists c. split; assumption.
Qed.

(** One step up from the Pusher or from one of the six classes upstream of
    it stays within the six. *)
Lemma returned_step_upstream c d :
  consumes p c d ->
  In (comp_class d)
     [Pusher; CsvExampleGen; ImporterNode; Transform; Trainer; ResolverNode;
      Evaluator] ->
  In (comp_class c)
     [CsvExampleGen; ImporterNode; Transform; Trainer; ResolverNode;
      Evaluator].
Proof.
  intros H Hd. apply returned_edge_dataflow in H.
  destruct (comp_class c), (comp_class d);
    cases_in H; try discriminate H; cases_in Hd; try discriminate Hd;
    cbn; tauto.
Qed.

Lemma returned_path_upstream c d :
  clos_trans Component (consumes p) c d ->
  In (comp_class d)
     [Pusher; CsvExampleGen; ImporterNode; Transform; Trainer; ResolverNode;
      Evaluator] ->
  In (comp_class c)
     [CsvExampleGen; ImporterNode; Transform; Trainer; ResolverNode;
      Evaluator].
Proof.
  intros H. apply clos_trans_t1n in H.
  induction H as [c d H | c y d H _ IH]; intros Hd.
  - exact (returned_step_upstream c d H Hd).
  - apply (returned_step_upstream c y H). right. exact (IH Hd).
Qed.

(** A path of classes in [dataflow] from the class of [c] to the class of
    [d] is a path of edges from [c] to [d]. *)
Lemma returned_path_by_class via : forall c d,
  In c (components p) -> In d (components p) ->
  along (comp_class c) via (comp_class d) ->
  clos_trans Component (consumes p) c d.
Proof.
  induction via as [| y via IH]; intros c d Hc Hd H.
  - apply t_step. exact (returned_dataflow_edge c d Hc Hd H).
  - destruct H as [H1 H2].
    destruct (returned_has_class y) as (m & Hm & Em).
    apply t_trans with m.
    + apply t_step. apply (returned_dataflow_edge c m Hc Hm).
      rewrite Em. exact H1.
    + apply (IH m d Hm Hd). rewrite Em. exact H2.
Qed.

Lemma returned_producer d kw pid key :
  In d (components p) ->
  In (kw, OutputOf pid key) (channel_inputs d) ->
  exists c, In c (components p) /\ comp_id c = pid.
Proof.
  returned Hret. intros Hd Hin.
  cases_in Hd; subst d; cases_in Hin; inversion Hin; subst;
    cbn [components];
    lazymatch goal with
    | |- exists c, In c ?l /\ _ =>
        let rec go l :=
          lazymatch l with
          | ?x :: ?l' =>
              first [exists x; split; [cbn; pick_in | reflexivity] | go l']
          end in
        go l
    end.
Qed.

End Returned.

Lemma sorted_positions (l : list nat) :
  StronglySorted lt l ->
  forall i j a b,
    nth_error l i = Some a -> nth_error l j = Some b -> a < b -> i < j.
Proof.
  induction 1 as [| x l Hs IH Hx]; intros i j a b Hi Hj Hab.
  - destruct i; discriminate Hi.
  - destruct i as [| i], j as [| j]; cbn in Hi, Hj.
    + injection Hi as <-. injection Hj as <-. lia.
    + lia.
    + injection Hj as <-. apply nth_error_In in Hi.
      rewrite Forall_forall in Hx. specialize (Hx a Hi). lia.
    + apply -> Nat.succ_lt_mono. exact (IH i j a b Hi Hj Hab).
Qed.

(** X1: for all arguments, the edges of the returned pipeline are the
    thirteen producer-consumer pairs of classes in [dataflow], and no
    others. *)
Theorem pipeline_edges pn pr dr us mf sm mp bpa s :
  exists p s',
    returns (_create_pipeline pn pr dr us mf sm mp bpa) s p s' /\
    forall c d,
      consumes p c d <->
      In c (components p) /\ In d (components p) /\
      In (comp_class c, comp_class d) dataflow.
Proof.
  destruct (create_pipeline_returns pn pr dr us mf sm mp bpa s)
    as (p & s' & H).
  exists p, s'. split; [exact H|]. intros c d. split.
  - intros Hcd. destruct Hcd as (Hc & Hd & Hin).
    repeat split; try assumption.
    apply (returned_edge_dataflow _ _ _ _ _ _ _ _ _ _ _ H).
    exact (conj Hc (conj Hd Hin)).
  - intros (Hc & Hd & Hcd).
    exact (returned_dataflow_edge _ _ _ _ _ _ _ _ _ _ _ H c d Hc Hd Hcd).
Qed.

(** X2: for all arguments, the components list is in topological order:
    a component that is given an output of another stands after it in the
    list. *)
Theorem components_topological_order pn pr dr us mf sm mp bpa s :
  exists p s',
    returns (_create_pipeline pn pr dr us mf sm mp bpa) s p s' /\
    forall i j c d,
      nth_error (components p) i = Some c ->
      nth_error (components p) j = Some d ->
      consumes p c d -> i < j.
Proof.
  destruct (create_pipeline_returns pn pr dr us mf sm mp bpa s)
    as (p & s' & H).
  exists p, s'. split; [exact H|]. intros i j c d Hi Hj Hcd.
  apply (sorted_positions (map comp_id (components p))
           (returned_ids_increase _ _ _ _ _ _ _ _ _ _ _ H)
           i j (comp_id c) (comp_id d)).
  - apply map_nth_error. exact Hi.
  - apply map_nth_error. exact Hj.
  - exact (returned_edge_rank _ _ _ _ _ _ _ _ _ _ _ H c d Hcd).
Qed.

(** X3: for all arguments, the components that are given no output of
    another component are exactly the CsvExampleGen, the ImporterNode and
    the ResolverNode. *)
Theorem pipeline_sources pn pr dr us mf sm mp bpa s :
  exists p s',
    returns (_create_pipeline pn pr dr us mf sm mp bpa) s p s' /\
    forall d, In d (components p) ->
      ((exists c, consumes p c d) <->
       ~ In (comp_class d) [CsvExampleGen; ImporterNode; ResolverNode]).
Proof.
  destruct (create_pipeline_returns pn pr dr us mf sm mp bpa s)
    as (p & s' & H).
  exists p, s'. split; [exact H|]. intros d Hd. split.
  - intros (c & Hcd) Hcls.
    apply (returned_edge_dataflow _ _ _ _ _ _ _ _ _ _ _ H) in Hcd.
    destruct (comp_class c), (comp_class d);
      cases_in Hcd; try discriminate Hcd; cases_in Hcls; discriminate Hcls.
  - intros Hcls.
    assert (E : exists cls, In (cls, comp_class d) dataflow).
    { destruct (comp_class d);
        try (exfalso; apply Hcls; cbn; tauto);
        eexists; cbn; pick_in. }
    destruct E as (cls & E).
    destruct (returned_has_class _ _ _ _ _ _ _ _ _ _ _ H cls)
      as (c & Hc & Ec).
    exists c.
    apply (returned_dataflow_edge _ _ _ _ _ _ _ _ _ _ _ H c d Hc Hd).
    rewrite Ec. exact E.
Qed.

(** X4: for all arguments, the components whose outputs no component is
    given are exactly the SchemaGen, the ExampleValidator and the Pusher. *)
Theorem pipeline_sinks pn pr dr us mf sm mp bpa s :
  exists p s',
    returns (_create_pipeline pn pr dr us mf sm mp bpa) s p s' /\
    forall c, In c (components p) ->
      ((exists d, consumes p c d) <->
       ~ In (comp_class c) [SchemaGen; ExampleValidator; Pusher]).
Proof.
  destruct (create_pipeline_returns pn pr dr us mf sm mp bpa s)
    as (p & s' & H).
  exists p, s'. split; [exact H|]. intros c Hc. split.
  - intros (d & Hcd) Hcls.
    apply (returned_edge_dataflow _ _ _ _ _ _ _ _ _ _ _ H) in Hcd.
    destruct (comp_class c), (comp_class d);
      cases_in Hcd; try discriminate Hcd; cases_in Hcls; discriminate Hcls.
  - intros Hcls.
    assert (E : exists cls, In (comp_class c, cls) dataflow).
    { destruct (comp_class c);
        try (exfalso; apply Hcls; cbn; tauto);
        eexists; cbn; pick_in. }
    destruct E as (cls & E).
    destruct (returned_has_class _ _ _ _ _ _ _ _ _ _ _ H cls)
      as (d & Hd & Ed).
    exists d.
    apply (returned_dataflow_edge _ _ _ _ _ _ _ _ _ _ _ H c d Hc Hd).
    rewrite Ed. exact E.
Qed.

(** X5: for all arguments, the components upstream of the Pusher, through
    one or more edges, are exactly the CsvExampleGen, the ImporterNode, the
    Transform, the Trainer, the ResolverNode and the Evaluator: the
    StatisticsGen, the SchemaGen and the ExampleValidator are not among
    them. *)
Theorem pusher_upstream pn pr dr us mf sm mp bpa s :
  exists p s',
    returns (_create_pipeline pn pr dr us mf sm mp bpa) s p s' /\
    forall c d,
      In c (components p) -> In d (components p) -> comp_class d = Pusher ->
      (clos_trans Component (consumes p) c d <->
       In (comp_class c)
          [CsvExampleGen; ImporterNode; Transform; Trainer; ResolverNode;
           Evaluator]).
Proof.
  destruct (create_pipeline_returns pn pr dr us mf sm mp bpa s)
    as (p & s' & H).
  exists p, s'. split; [exact H|]. intros c d Hc Hd Ed. split.
  - intros Hcd.
    apply (returned_path_upstream _ _ _ _ _ _ _ _ _ _ _ H c d Hcd).
    rewrite Ed. left. reflexivity.
  - intros Hcls.
    assert (E : exists via, along (comp_class c) via (comp_class d)).
    { rewrite Ed. destruct (comp_class c); cases_in Hcls;
        try discriminate Hcls.
      - exists [Transform; Trainer]. cbn. tauto.
      - exists []. cbn. tauto.
      - exists [Trainer]. cbn. tauto.
      - exists [Evaluator]. cbn. tauto.
      - exists []. cbn. tauto.
      - exists [Trainer]. cbn. tauto. }
    destruct E as (via & E).
    exact (returned_path_by_class _ _ _ _ _ _ _ _ _ _ _ H via c d Hc Hd E).
Qed.

Lemma sorted_nodup (l : list nat) : StronglySorted lt l -> NoDup l.
Proof.
  induction 1 as [| x l _ IH Hx]; constructor; [| exact IH].
  intros Hin. rewrite Forall_forall in Hx. specialize (Hx x Hin). lia.
Qed.

(** X6: for all arguments, the ten components are distinct objects and
    every output a component is given is an output of a component of the
    list: no edge leaves the pipeline. *)
Theorem wiring_closed pn pr dr us mf sm mp bpa s :
  exists p s',
    returns (_create_pipeline pn pr dr us mf sm mp bpa) s p s' /\
    NoDup (map comp_id (components p)) /\
    forall d kw pid key,
      In d (components p) ->
      In (kw, OutputOf pid key) (channel_inputs d) ->
      exists c, In c (components p) /\ comp_id c = pid.
Proof.
  destruct (create_pipeline_returns pn pr dr us mf sm mp bpa s)
    as (p & s' & H).
  exists p, s'. split; [exact H|]. split.
  - apply sorted_nodup.
    exact (returned_ids_increase _ _ _ _ _ _ _ _ _ _ _ H).
  - intros d kw pid key.
    exact (returned_producer _ _ _ _ _ _ _ _ _ _ _ H d kw pid key).
Qed.

(** X7: for all arguments, the only channels made by [Channel(type=...)]
    are the two given to the ResolverNode, a Model channel as [model] and a
    ModelBlessing channel as [model_blessing]; they are two objects, neither
    of them a component, and the resolver class is
    LatestBlessedModelResolver. *)
Theorem resolver_channels pn pr dr us mf sm mp bpa s :
  exists p s',
    returns (_create_pipeline pn pr dr us mf sm mp bpa) s p s' /\
    exists resolver m b,
      of_class ResolverNode p = [resolver] /\
      get_kwarg (kwargs resolver) "instance_name" =
        Some (AText "latest_blessed_model_resolver") /\
      get_kwarg (kwargs resolver) "resolver_class" =
        Some (AResolverClass LatestBlessedModelResolver) /\
      new_channels resolver =
        [("model", m, Model); ("model_blessing", b, ModelBlessing)] /\
      m <> b /\
      ~ In m (map comp_id (components p)) /\
      ~ In b (map comp_id (components p)) /\
      forall c, In c (components p) -> c <> resolver -> new_channels c = [].
Proof.
  run_py. do 3 eexists.
  do 4 (split; [reflexivity|]).
  split; [lia|].
  split; [cbn; intros H; cases_in H; lia|].
  split; [cbn; intros H; cases_in H; lia|].
  intros c Hc Hn. cases_in Hc; subst c; first [reflexivity | contradiction].
Qed.

(** X8: for all arguments, the Trainer gets [module_file], the Transform's
    [transformed_examples] and [transform_graph] outputs, 10000 training
    steps and 5000 evaluation steps. *)
Theorem trainer_wiring pn pr dr us mf sm mp bpa s :
  exists p s',
    returns (_create_pipeline pn pr dr us mf sm mp bpa) s p s' /\
    exists transform trainer,
      of_class Transform p = [transform] /\
      of_class Trainer p = [trainer] /\
      get_kwarg (kwargs trainer) "module_file" = Some (AText mf) /\
      get_kwarg (kwargs trainer) "transformed_examples" =
        Some (AChannel (outputs transform "transformed_examples")) /\
      get_kwarg (kwargs trainer) "transform_graph" =
        Some (AChannel (outputs transform "transform_graph")) /\
      get_kwarg (kwargs trainer) "train_args" =
        Some (ATrainArgs {| train_num_steps := 10000 |}) /\
      get_kwarg (kwargs trainer) "eval_args" =
        Some (AEvalArgs {| eval_num_steps := 5000 |}).
Proof.
  run_py. do 2 eexists.
  repeat (split; [reflexivity|]). reflexivity.
Qed.

(** X9: for all arguments, the Evaluator gets the CsvExampleGen's
    [examples] output, the Trainer's [model] output as the candidate and the
    ResolverNode's [model] output as the baseline. *)
Theorem evaluator_wiring pn pr dr us mf sm mp bpa s :
  exists p s',
    returns (_create_pipeline pn pr dr us mf sm mp bpa) s p s' /\
    exists example_gen trainer resolver evaluator,
      of_class CsvExampleGen p = [example_gen] /\
      of_class Trainer p = [trainer] /\
      of_class ResolverNode p = [resolver] /\
      of_class Evaluator p = [evaluator] /\
      get_kwarg (kwargs evaluator) "examples" =
        Some (AChannel (outputs example_gen "examples")) /\
      get_kwarg (kwargs evaluator) "model" =
        Some (AChannel (outputs trainer "model")) /\
      get_kwarg (kwargs evaluator) "baseline_model" =
        Some (AChannel (outputs resolver "model")).
Proof.
  run_py. do 4 eexists.
  repeat (split; [reflexivity|]). reflexivity.
Qed.

(** X10: for all arguments, the StatisticsGen and the Transform get the
    CsvExampleGen's [examples] output, the SchemaGen and the
    ExampleValidator get the StatisticsGen's [statistics] output, the
    SchemaGen is told not to infer feature shapes, the Transform gets
    [module_file] and the CsvExampleGen reads [data_root]. *)
Theorem ingestion_wiring pn pr dr us mf sm mp bpa s :
  exists p s',
    returns (_create_pipeline pn pr dr us mf sm mp bpa) s p s' /\
    exists example_gen statistics_gen schema_gen validator transform,
      of_class CsvExampleGen p = [example_gen] /\
      of_class StatisticsGen p = [statistics_gen] /\
      of_class SchemaGen p = [schema_gen] /\
      of_class ExampleValidator p = [validator] /\
      of_class Transform p = [transform] /\
      get_kwarg (kwargs example_gen) "input_base" = Some (AText dr) /\
      get_kwarg (kwargs statistics_gen) "examples" =
        Some (AChannel (outputs example_gen "examples")) /\
      get_kwarg (kwargs schema_gen) "statistics" =
        Some (AChannel (outputs statistics_gen "statistics")) /\
      get_kwarg (kwargs schema_gen) "infer_feature_shape" =
        Some (ABool false) /\
      get_kwarg (kwargs validator) "statistics" =
        Some (AChannel (outputs statistics_gen "statistics")) /\
      get_kwarg (kwargs transform) "examples" =
        Some (AChannel (outputs example_gen "examples")) /\
      get_kwarg (kwargs transform) "module_file" = Some (AText mf).
Proof.
  run_py. do 5 eexists.
  repeat (split; [reflexivity|]). reflexivity.
Qed.

(** * Further properties of the module-level paths and of the script *)

Lemma join_step_link a b :
  os_path.startswith b os_path.sep = false ->
  os_path.join_step a b = a ++ link a ++ b.
Proof.
  intros H. unfold os_path.join_step, link. rewrite H.
  destruct (String.eqb a "" || os_path.endswith a os_path.sep)%bool;
    reflexivity.
Qed.

Lemma append_nonempty a b : b <> "" -> a ++ b <> "".
Proof.
  intros Hb. destruct a as [| c a]; [exact Hb | discriminate].
Qed.

Lemma join_link a b rest :
  plain b -> Forall plain rest ->
  os_path.join a (b :: rest) = a ++ link a ++ b ++ after_seps rest.
Proof.
  intros (Hb & Hs & He) Hrest.
  change (os_path.join a (b :: rest))
    with (os_path.join (os_path.join_step a b) rest).
  rewrite (join_step_link a b Hs).
  rewrite join_plain; [| | | exact Hrest].
  - rewrite !append_associative. reflexivity.
  - apply append_nonempty, append_nonempty. exact Hb.
  - rewrite endswith_sep_append by (apply append_nonempty; exact Hb).
    rewrite endswith_sep_append by exact Hb. exact He.
Qed.

Lemma prefix_append_cancel a x y :
  String.prefix (a ++ x) (a ++ y) = String.prefix x y.
Proof.
  induction a as [| c a IH]; [reflexivity|].
  cbn. destruct (ascii_dec c c) as [_ | N]; [exact IH | contradiction].
Qed.

(** Case analysis on a position in a list written out. *)
Ltac nth_cases i H :=
  first
    [ discriminate H
    | destruct i as [| i]; cbn in H;
      [ first [discriminate H | injection H as <-] | nth_cases i H ] ].

Ltac plain_list :=
  repeat constructor; first [discriminate | reflexivity].

(** X12: with [HOME] set to any string, the module-level paths are the
    value of [HOME], then a [/] unless [HOME] is empty or ends with one,
    then a fixed relative path. *)
Theorem module_paths_closed_form s home :
  environ s "HOME" = Some home ->
  exists g,
    returns module_constants s g s /\
    _taxi_root g = home ++ link home ++ "taxi" /\
    _tfx_root g = home ++ link home ++ "tfx" /\
    _data_root g = home ++ link home ++ "taxi/data/simple" /\
    _user_schema_path g =
      home ++ link home ++ "taxi/data/user_provided_schema" /\
    _module_file g = home ++ link home ++ "taxi/taxi_utils.py" /\
    _serving_model_dir g =
      home ++ link home ++ "taxi/serving_model/chicago_taxi_importer" /\
    _metadata_path g =
      home ++ link home ++
      "tfx/metadata/chicago_taxi_importer/metadata.db" /\
    _pipeline_root g =
      home ++ link home ++ "tfx/pipelines/chicago_taxi_importer".
Proof.
  intros H. eexists. split; [exact (module_constants_returns s home H)|].
  cbn [_taxi_root _tfx_root _data_root _user_schema_path _module_file
       _serving_model_dir _metadata_path _pipeline_root].
  rewrite !join_join. cbn [app].
  repeat split; (rewrite join_link; [reflexivity | plain_list..]).
Qed.

(** The paths at [HOME=/]: no second separator after the root. *)
Lemma module_paths_closed_form_witness :
  environ root_state "HOME" = Some "/" /\
  exists g,
    returns module_constants root_state g root_state /\
    _data_root g = "/taxi/data/simple" /\
    _pipeline_root g = "/tfx/pipelines/chicago_taxi_importer".
Proof.
  split; [reflexivity|].
  destruct (module_paths_closed_form root_state "/" eq_refl)
    as (g & Hg & _ & _ & Hd & _ & _ & _ & _ & Hp).
  exists g. split; [exact Hg|]. split; [exact Hd | exact Hp].
Defined.

(** X13: with [HOME] set to any string, no two of the six paths handed to
    [_create_pipeline] are equal and none is a prefix of another. *)
Theorem module_paths_prefix_free s home :
  environ s "HOME" = Some home ->
  exists g,
    returns module_constants s g s /\
    forall i j x y,
      nth_error [_data_root g; _user_schema_path g; _module_file g;
                 _serving_model_dir g; _metadata_path g; _pipeline_root g]
                i = Some x ->
      nth_error [_data_root g; _user_schema_path g; _module_file g;
                 _serving_model_dir g; _metadata_path g; _pipeline_root g]
                j = Some y ->
      i <> j -> String.prefix x y = false.
Proof.
  intros H. eexists. split; [exact (module_constants_returns s home H)|].
  cbn [_data_root _user_schema_path _module_file
       _serving_model_dir _metadata_path _pipeline_root].
  rewrite !join_join. cbn [app].
  rewrite !join_link by plain_list.
  intros i j x y Hi Hj Hij.
  nth_cases i Hi; nth_cases j Hj;
    try (exfalso; apply Hij; reflexivity);
    rewrite !prefix_append_cancel; reflexivity.
Qed.

(** The six paths at [HOME=/home/alice] are prefix-free. *)
Lemma module_paths_prefix_free_witness :
  environ example_state "HOME" = Some "/home/alice" /\
  exists g,
    returns module_constants example_state g example_state /\
    String.prefix (_data_root g) (_user_schema_path g) = false /\
    String.prefix (_pipeline_root g) (_metadata_path g) = false.
Proof.
  split; [reflexivity|].
  destruct (module_paths_prefix_free example_state "/home/alice" eq_refl)
    as (g & Hg & Hfree).
  exists g. split; [exact Hg|]. split.
  - apply (Hfree 0 1); [reflexivity | reflexivity | discriminate].
  - apply (Hfree 5 4); [reflexivity | reflexivity | discriminate].
Defined.

(** X14: without [HOME] in the environment the module-level assignments
    end in [KeyError] for the key [HOME], and so does the execution of the
    file under any module name, [__main__] or not: it does not return. *)
Theorem missing_home_raises s name :
  environ s "HOME" = None ->
  runStateT module_constants s = inl (KeyError "HOME") /\
  runStateT (script name) s = inl (KeyError "HOME") /\
  forall s', ~ returns (script name) s tt s'.
Proof.
  intros H.
  assert (Hm : runStateT module_constants s = inl (KeyError "HOME")).
  { unfold module_constants.
    rewrite run_bind, (environ_getitem_raises s "HOME" H). reflexivity. }
  assert (Hs : runStateT (script name) s = inl (KeyError "HOME")).
  { unfold script. rewrite run_bind, Hm. reflexivity. }
  split; [exact Hm|]. split; [exact Hs|].
  intros s' Hr. unfold returns in Hr. rewrite Hs in Hr. discriminate Hr.
Qed.

(** Without [HOME]: run as [__main__] and imported, the file ends in
    [KeyError]. *)
Lemma missing_home_raises_witness :
  environ bare_state "HOME" = None /\
  runStateT (script "__main__") bare_state = inl (KeyError "HOME") /\
  runStateT (script "taxi_pipeline_importer") bare_state =
    inl (KeyError "HOME").
Proof.
  split; [reflexivity|]. split.
  - exact (proj1 (proj2 (missing_home_raises bare_state "__main__"
                           eq_refl))).
  - exact (proj1 (proj2 (missing_home_raises bare_state
                           "taxi_pipeline_importer" eq_refl))).
Defined.

(** Imported as [taxi_pipeline_importer] at [HOME=/home/alice]: nothing is
    run and nothing is made. *)
Lemma script_imported_witness :
  environ example_state "HOME" = Some "/home/alice" /\
  "taxi_pipeline_importer" <> "__main__" /\
  returns (script "taxi_pipeline_importer") example_state tt example_state.
Proof.
  split; [reflexivity|]. split; [discriminate|].
  apply (script_imported example_state "/home/alice"
           "taxi_pipeline_importer" eq_refl).
  discriminate.
Defined.
